(** * AVIATE (av8): the upload front end and the interpretation pipeline

    The repository ships one piece of program logic, the React component
    [App] of [frontend/src/App.jsx]: the upload handler [handleUpload], the
    download helper [downloadFile], the section renderer [renderSection] and
    the element tree the component returns.  Module [Frontend] embeds them.

    The document interpretation pipeline (extractor, interpretation engine,
    artifact builder, orchestrator) is not part of the sources; module
    [Pipeline] models the chunk merge of the interpretation engine from the
    specification's wording. *)

From Stdlib Require Import List String Ascii Bool Arith Lia.
Import ListNotations.

Local Open Scope string_scope.
Local Open Scope list_scope.

Set Warnings "-register-all".

(* ================================================================== *)
(** * JavaScript values as the handler sees them                       *)
(* ================================================================== *)

Module Js.

(** The values [response.json()] can produce, plus [undefined], which
    a property read produces for a missing field.

    A number is carried by its canonical rendering (the text that
    [Number::toString] yields for it, so both zeros are ["0"]).  The
    component observes a number only through [ToString] (inside
    [Array.prototype.join]) and through [ToBoolean] (the [&&] and [||] of the
    render), and both are functions of that text.

    An object is carried by the list of its own properties; a property read
    takes the first entry with the key. *)
Inductive JsValue : Type :=
| JUndefined
| JNull
| JBool (b : bool)
| JNum (text : string)
| JStr (s : string)
| JArr (elems : list JsValue)
| JObj (props : list (string * JsValue)).

(** Errors that reach the [catch] of the handler. *)
Inductive JsError : Type :=
| UploadFailed                          (* new Error("Upload failed") *)
| FetchRejected (message : string)      (* fetch() rejected *)
| JsonSyntaxError (message : string)    (* response.json() rejected *)
| ReadOfNullish (prop : string)         (* TypeError: x.prop with x null/undefined *)
| NotAFunction (prop : string)          (* TypeError: x.prop(...) with x.prop not callable *)
| NoPrimitive.                          (* TypeError: cannot convert object to primitive *)

(** ToBoolean. *)
Definition truthy (v : JsValue) : bool :=
  match v with
  | JUndefined | JNull => false
  | JBool b => b
  | JNum text => negb (String.eqb text "0" || String.eqb text "NaN")
  | JStr s => negb (String.eqb s "")
  | JArr _ | JObj _ => true
  end.

(** [a || b] *)
Definition js_or (a b : JsValue) : JsValue := if truthy a then a else b.

(** Own property of an object value. *)
Fixpoint assoc (k : string) (props : list (string * JsValue)) : option JsValue :=
  match props with
  | [] => None
  | (k', v) :: rest => if String.eqb k k' then Some v else assoc k rest
  end.

(** [v.k] for the data keys the component reads ([summary],
    [cable_pull_sheet], [reflected_bom], [notes]): a TypeError on [null] and
    [undefined], the own property on an object, [undefined] everywhere else
    (no prototype carries one of these keys). *)
Definition get_prop (v : JsValue) (k : string) : JsError + JsValue :=
  match v with
  | JUndefined | JNull => inl (ReadOfNullish k)
  | JObj props => inr (match assoc k props with Some x => x | None => JUndefined end)
  | _ => inr JUndefined
  end.

(** The string ["\n"]. *)
Definition newline : string := String "010"%char "".

(** Concatenation with a separator, as [join] builds its result. *)
Fixpoint sep_concat (sep : string) (parts : list string) : string :=
  match parts with
  | [] => ""
  | [p] => p
  | p :: rest => p ++ sep ++ sep_concat sep rest
  end.

(** ToString of a value, and of an array element inside [join] (where
    [undefined] and [null] give the empty string).  A parsed object without
    an own [toString] key renders as [[object Object]]; with one, the own
    property (never callable in parsed JSON) shadows the inherited method and
    the conversion throws.  A nested array renders as its [join(",")]. *)
Fixpoint to_string (v : JsValue) : option string :=
  match v with
  | JUndefined => Some "undefined"
  | JNull => Some "null"
  | JBool true => Some "true"
  | JBool false => Some "false"
  | JNum text => Some text
  | JStr s => Some s
  | JArr elems =>
      option_map (sep_concat ",")
      ((fix elems_to_strings (l : list JsValue) : option (list string) :=
         match l with
         | [] => Some []
         | e :: rest =>
             match (match e with
                    | JUndefined | JNull => Some ""
                    | _ => to_string e
                    end), elems_to_strings rest with
             | Some s, Some ss => Some (s :: ss)
             | _, _ => None
             end
         end) elems)
  | JObj props =>
      match assoc "toString" props with
      | Some _ => None
      | None => Some "[object Object]"
      end
  end.

(** An array element inside [join]. *)
Definition elem_to_string (e : JsValue) : option string :=
  match e with
  | JUndefined | JNull => Some ""
  | _ => to_string e
  end.

Fixpoint elems_to_strings (l : list JsValue) : option (list string) :=
  match l with
  | [] => Some []
  | e :: rest =>
      match elem_to_string e, elems_to_strings rest with
      | Some s, Some ss => Some (s :: ss)
      | _, _ => None
      end
  end.

(** [v.join(sep)] as a method call on an arbitrary value: reading [join]
    off [undefined] or [null] throws, only an array has a callable [join]
    (a parsed object may own a [join] key, but never a callable one). *)
Definition call_join (v : JsValue) (sep : string) : JsError + string :=
  match v with
  | JUndefined | JNull => inl (ReadOfNullish "join")
  | JArr elems =>
      match elems_to_strings elems with
      | Some parts => inr (sep_concat sep parts)
      | None => inl NoPrimitive
      end
  | _ => inl (NotAFunction "join")
  end.

Definition is_array (v : JsValue) : bool :=
  match v with JArr _ => true | _ => false end.

(** [s.split(sep)] for a one-character separator: the pieces between the
    separators, always at least one piece. *)
Fixpoint split (sep : ascii) (s : string) : list string :=
  match s with
  | EmptyString => [""]
  | String c rest =>
      if Ascii.eqb c sep then "" :: split sep rest
      else match split sep rest with
           | [] => [String c ""]
           | piece :: pieces => String c piece :: pieces
           end
  end.

Fixpoint has_char (c : ascii) (s : string) : bool :=
  match s with
  | EmptyString => false
  | String c' rest => Ascii.eqb c' c || has_char c rest
  end.

(** [a.pop()] as an expression: the last element, [undefined] on an empty
    array. *)
Definition pop (pieces : list string) : JsValue :=
  match rev pieces with
  | [] => JUndefined
  | p :: _ => JStr p
  end.

(** [ToString] of the value returns. *)
Definition converts (v : JsValue) : bool :=
  match to_string v with Some _ => true | None => false end.

(** [ToString] of the value does not throw: no object that owns a
    [toString] key, at any depth of nested arrays. *)
Fixpoint joinable (v : JsValue) : bool :=
  match v with
  | JArr elems => forallb joinable elems
  | JObj props => match assoc "toString" props with Some _ => false | None => true end
  | _ => true
  end.

(** What React accepts as a child: strings and numbers become text,
    booleans, [null] and [undefined] render nothing, an array renders its
    elements.  A parsed object is none of these (it is no element, since it
    cannot carry the symbol that marks one, and no iterable): rendering it
    throws. *)
Fixpoint renderable (v : JsValue) : bool :=
  match v with
  | JObj _ => false
  | JArr elems => forallb renderable elems
  | _ => true
  end.

(** The text a renderable child leaves in the document. *)
Fixpoint dom_text (v : JsValue) : string :=
  match v with
  | JStr s => s
  | JNum text => text
  | JArr elems =>
      (fix texts_of (l : list JsValue) : string :=
         match l with
         | [] => ""
         | e :: rest => (dom_text e ++ texts_of rest)%string
         end) elems
  | _ => ""
  end.

End Js.

(* ================================================================== *)
(** * The component of [frontend/src/App.jsx]                          *)
(* ================================================================== *)

Module Frontend.
Import Js.

(** ** State and effects *)

(** A selected file: its name and its content. *)
Record File : Type := mkFile { name : string; content : string }.

(** The six [useState] cells of [App]. [notes] and [filename] only ever
    hold strings; the other result cells hold whatever the response
    carried. *)
Record State : Type := mkState {
  summary : JsValue;
  pullSheet : JsValue;
  bom : JsValue;
  notes : string;
  filename : string;
  loading : bool
}.

Definition initial : State :=
  {| summary := JStr ""; pullSheet := JStr ""; bom := JStr "";
     notes := ""; filename := ""; loading := false |}.

(** What the handler does to the outside, in program order. *)
Inductive Effect : Type :=
| SetSummary (v : JsValue)
| SetPullSheet (v : JsValue)
| SetBOM (v : JsValue)
| SetNotes (s : string)
| SetFilename (s : string)
| SetLoading (b : bool)
| Fetch (url method : string) (file : File)   (* body: FormData {file} *)
| Alert (error : JsError).                    (* alert(error.message) *)

Definition apply_effect (st : State) (e : Effect) : State :=
  match e with
  | SetSummary v => {| summary := v; pullSheet := pullSheet st; bom := bom st;
                       notes := notes st; filename := filename st; loading := loading st |}
  | SetPullSheet v => {| summary := summary st; pullSheet := v; bom := bom st;
                         notes := notes st; filename := filename st; loading := loading st |}
  | SetBOM v => {| summary := summary st; pullSheet := pullSheet st; bom := v;
                   notes := notes st; filename := filename st; loading := loading st |}
  | SetNotes s => {| summary := summary st; pullSheet := pullSheet st; bom := bom st;
                     notes := s; filename := filename st; loading := loading st |}
  | SetFilename s => {| summary := summary st; pullSheet := pullSheet st; bom := bom st;
                        notes := notes st; filename := s; loading := loading st |}
  | SetLoading b => {| summary := summary st; pullSheet := pullSheet st; bom := bom st;
                       notes := notes st; filename := filename st; loading := b |}
  | Fetch _ _ _ | Alert _ => st
  end.

Definition apply_effects (st : State) (trace : list Effect) : State :=
  fold_left apply_effect trace st.

(** ** The handler's monad: a trace of effects and a result or a thrown
    error *)

Definition M (A : Type) : Type := list Effect * (JsError + A).

Definition ret {A} (a : A) : M A := ([], inr a).

Definition bind {A B} (m : M A) (k : A -> M B) : M B :=
  match snd m with
  | inl e => (fst m, inl e)
  | inr a => (fst m ++ fst (k a), snd (k a))
  end.

Definition emit (e : Effect) : M unit := ([e], inr tt).

Definition throw {A} (e : JsError) : M A := ([], inl e).

Definition lift {A} (r : JsError + A) : M A := ([], r).

(** [try { body } catch (error) { handler } finally { final }] *)
Definition try_catch_finally (body : M unit) (handler : JsError -> M unit)
    (final : M unit) : M unit :=
  let caught :=
    match snd body with
    | inl e => (fst body ++ fst (handler e), snd (handler e))
    | inr a => (fst body, inr a)
    end in
  match snd final with
  | inr _ => (fst caught ++ fst final, snd caught)
  | inl e => (fst caught ++ fst final, inl e)
  end.

Notation "x <- m ;; k" := (bind m (fun x => k))
  (at level 61, m at next level, right associativity).
Notation "m ;; k" := (bind m (fun _ => k))
  (at level 61, right associativity).

(** ** The network, as the handler meets it *)

Inductive Body : Type :=
| NotJson (message : string)     (* response.json() rejects *)
| Json (data : JsValue).         (* response.json() resolves to data *)

Inductive FetchOutcome : Type :=
| Rejected (message : string)            (* fetch() rejects *)
| Response (ok : bool) (body : Body).    (* fetch() resolves *)

Record ResponseObj : Type := mkResponse { ok : bool; body : Body }.

Definition fetch (url method : string) (file : File) (net : FetchOutcome)
  : M ResponseObj :=
  emit (Fetch url method file) ;;
  match net with
  | Rejected message => throw (FetchRejected message)
  | Response o b => ret (mkResponse o b)
  end.

Definition json (response : ResponseObj) : M JsValue :=
  match body response with
  | NotJson message => throw (JsonSyntaxError message)
  | Json data => ret data
  end.

(** [event.target.files]: the FileList of the input. *)
Definition Event : Type := list File.

(** ** handleUpload (App.jsx, lines 11-39) *)

Definition handleUpload (event : Event) (net : FetchOutcome) : M unit :=
  match nth_error event 0 with
  | None => ret tt
  | Some file =>
      emit (SetFilename (name file)) ;;
      emit (SetLoading true) ;;
      try_catch_finally
        (response <- fetch "/upload" "POST" file net ;;
         if negb (ok response) then throw UploadFailed else
         data <- json response ;;
         v <- lift (get_prop data "summary") ;;
         emit (SetSummary v) ;;
         v <- lift (get_prop data "cable_pull_sheet") ;;
         emit (SetPullSheet v) ;;
         v <- lift (get_prop data "reflected_bom") ;;
         emit (SetBOM v) ;;
         v <- lift (get_prop data "notes") ;;
         s <- lift (call_join v newline) ;;
         emit (SetNotes s))
        (fun error => emit (Alert error))
        (emit (SetLoading false))
  end.

(** The state once the handler has run to its end, for a run that no
    other run overlaps: its effects are applied in a row.  (The handler
    suspends at its two [await]s while the file input stays enabled;
    [overlapped_upload] below lets other effects in.) *)
Definition after_upload (st : State) (event : Event) (net : FetchOutcome) : State :=
  apply_effects st (fst (handleUpload event net)).

(** ** downloadFile (App.jsx, lines 41-48) *)

(** The anchor that [downloadFile] creates, clicks and removes. *)
Record Link : Type := mkLink { href : string; download : JsValue }.

Definition downloadFile (path : string) : Link :=
  {| href := path; download := pop (split "/"%char path) |}.

(** ** The element tree (App.jsx, lines 50-89) *)

Inductive Tag : Type :=
| div | h1 | h2 | p | fragment
| input                       (* type="file", onChange = handleUpload *)
| button (path : string).     (* onClick = () => downloadFile(path) *)

(** Inline styles are left out: they are constants. *)
Inductive Node : Type :=
| Text (s : string)           (* literal JSX text *)
| Value (v : JsValue)         (* an expression child, {v} *)
| El (tag : Tag) (children : list Node).

Definition no_data : JsValue := JStr "No data available.".

Definition renderSection (title : string) (content : JsValue) : Node :=
  El div [ El h2 [Value (JStr title)];
           El div [Value (js_or content no_data)] ].

(** [a && b] where [b] is an element. *)
Definition js_and (a : JsValue) (b : Node) : Node :=
  if truthy a then b else Value a.

Definition results (st : State) : Node :=
  El fragment
    [ renderSection "System Summary" (summary st);
      renderSection "Cable Pull Sheet" (pullSheet st);
      El div
        [ El (button ("/files/" ++ filename st ++ "_pullsheet.pdf"))
            [Text "Download Pull Sheet PDF"];
          Value (JStr " ");
          El (button ("/files/" ++ filename st ++ "_pullsheet.csv"))
            [Text "Download Pull Sheet CSV"] ];
      renderSection "Reflected BOM" (bom st);
      El div
        [ El (button ("/files/" ++ filename st ++ "_bom.pdf"))
            [Text "Download BOM PDF"];
          Value (JStr " ");
          El (button ("/files/" ++ filename st ++ "_bom.csv"))
            [Text "Download BOM CSV"] ];
      renderSection "System Verification Notes" (JStr (notes st));
      El div
        [ El (button ("/files/" ++ filename st ++ "_summary.pdf"))
            [Text "Download Summary PDF"];
          Value (JStr " ");
          El (button ("/files/" ++ filename st ++ "_verification.pdf"))
            [Text "Download Verification PDF"] ] ].

Definition App (st : State) : Node :=
  El div
    [ El h1 [Text "AV-GPT Upload"];
      El input [];
      js_and (JBool (loading st))
        (El p [Text "Processing your file, please wait..."]);
      (* !loading && summary && (<>...</>) *)
      if truthy (JBool (negb (loading st)))
      then js_and (summary st) (results st)
      else Value (JBool (negb (loading st))) ].

(** ** Reading the tree *)

(** The paths behind the download buttons of a tree, in document order.
    This reads the tree that [App] returns; whether React can put that tree
    on screen is [mounts], and what is on screen is [page_after]. *)
Fixpoint download_paths (n : Node) : list string :=
  match n with
  | Text _ | Value _ => []
  | El (button path) children => path :: flat_map download_paths children
  | El _ children => flat_map download_paths children
  end.

(** The sections of a tree (the shape [renderSection] builds), as title
    and the child value under it, in document order.  Like
    [download_paths] this reads the returned tree, not the screen. *)
Fixpoint sections (n : Node) : list (string * JsValue) :=
  match n with
  | Text _ | Value _ => []
  | El div [El h2 [Value (JStr title)]; El div [Value shown]] => [(title, shown)]
  | El _ children => flat_map sections children
  end.

(** The download links a user can reach from the tree. *)
Definition links (n : Node) : list Link := map downloadFile (download_paths n).

(** ** What a run of the handler was *)

Definition is_alert (e : Effect) : bool :=
  match e with Alert _ => true | _ => false end.

Definition is_fetch (e : Effect) : bool :=
  match e with Fetch _ _ _ => true | _ => false end.


(** The run reported no error to the user. *)
Definition succeeded (run : M unit) : bool :=
  negb (existsb is_alert (fst run)) &&
  match snd run with inr _ => true | inl _ => false end.

(** ** The artifact naming scheme, in the specification's words

    [{original-filename}_{artifact-suffix}.{ext}], suffix one of pullsheet,
    bom, summary, verification and ext one of pdf, csv. *)

Inductive Suffix : Type := Pullsheet | Bom | Summary | Verification.
Inductive Ext : Type := Pdf | Csv.

Definition suffix_text (x : Suffix) : string :=
  match x with
  | Pullsheet => "pullsheet" | Bom => "bom"
  | Summary => "summary" | Verification => "verification"
  end.

Definition ext_text (x : Ext) : string :=
  match x with Pdf => "pdf" | Csv => "csv" end.

Definition artifact_name (original : string) (x : Suffix * Ext) : string :=
  original ++ "_" ++ suffix_text (fst x) ++ "." ++ ext_text (snd x).

(** Where the front end looks an artifact up: under [/files/]. *)
Definition artifact_path (original : string) (x : Suffix * Ext) : string :=
  "/files/" ++ artifact_name original x.

(** Pull-sheet PDF, pull-sheet CSV, BOM PDF, BOM CSV, summary PDF,
    verification PDF. *)
Definition six_artifacts : list (Suffix * Ext) :=
  [ (Pullsheet, Pdf); (Pullsheet, Csv); (Bom, Pdf); (Bom, Csv);
    (Summary, Pdf); (Verification, Pdf) ].

(** Modelled from the spec: the JobResult of the outbound interface
    (section 6), whose producer, the job orchestrator behind [POST /upload],
    is not among the sources.  Only the four content fields are modelled. *)
Record JobResult : Type := mkJobResult {
  jr_summary : string;
  jr_cable_pull_sheet : string;
  jr_reflected_bom : string;
  jr_notes : list string
}.

(** A parsed response body carries a JobResult: an object whose four fields
    hold it, whatever else the object holds. *)
Definition carries (data : JsValue) (r : JobResult) : Prop :=
  match data with
  | JObj props =>
      assoc "summary" props = Some (JStr (jr_summary r)) /\
      assoc "cable_pull_sheet" props = Some (JStr (jr_cable_pull_sheet r)) /\
      assoc "reflected_bom" props = Some (JStr (jr_reflected_bom r)) /\
      assoc "notes" props = Some (JArr (map JStr (jr_notes r)))
  | _ => False
  end.

(** The [notes] field is absent or is not an array. *)
Definition notes_unusable (data : JsValue) : bool :=
  match get_prop data "notes" with
  | inr v => negb (is_array v)
  | inl _ => true
  end.

(** The result sections on screen show the response's summary, pull sheet
    and BOM. *)
Definition shows_new_data (st : State) (data : JsValue) : Prop :=
  exists s c b,
    get_prop data "summary" = inr s /\
    get_prop data "cable_pull_sheet" = inr c /\
    get_prop data "reflected_bom" = inr b /\
    In ("System Summary", js_or s no_data) (sections (App st)) /\
    In ("Cable Pull Sheet", js_or c no_data) (sections (App st)) /\
    In ("Reflected BOM", js_or b no_data) (sections (App st)).

(** ** More readings of a run and of the tree *)

Definition is_set_notes (e : Effect) : bool :=
  match e with SetNotes _ => true | _ => false end.

(** [setSummary], [setPullSheet], [setBOM], [setNotes]. *)
Definition is_result_setter (e : Effect) : bool :=
  match e with
  | SetSummary _ | SetPullSheet _ | SetBOM _ | SetNotes _ => true
  | _ => false
  end.

(** The three traces a run on a selected file can have. *)
Definition trace_failed (file : File) (e : JsError) : list Effect :=
  [ SetFilename (name file); SetLoading true; Fetch "/upload" "POST" file;
    Alert e; SetLoading false ].

Definition trace_ok (file : File) (v c b : JsValue) (s : string) : list Effect :=
  [ SetFilename (name file); SetLoading true; Fetch "/upload" "POST" file;
    SetSummary v; SetPullSheet c; SetBOM b; SetNotes s; SetLoading false ].

Definition trace_partial (file : File) (v c b : JsValue) (e : JsError) : list Effect :=
  [ SetFilename (name file); SetLoading true; Fetch "/upload" "POST" file;
    SetSummary v; SetPullSheet c; SetBOM b; Alert e; SetLoading false ].

(** The literal texts of the tree, in document order. *)
Fixpoint texts (n : Node) : list string :=
  match n with
  | Text s => [s]
  | Value _ => []
  | El _ children => flat_map texts children
  end.

Definition processing_text : string := "Processing your file, please wait...".

Definition section_titles : list string :=
  [ "System Summary"; "Cable Pull Sheet"; "Reflected BOM";
    "System Verification Notes" ].

(** The character ['\n']. *)
Definition newline_char : ascii := "010"%char.

(** ** From the returned tree to the screen *)

(** React can render the tree: every expression child is renderable.
    Otherwise the render throws and, with no error boundary in [App], the
    root is unmounted. *)
Fixpoint mounts (n : Node) : bool :=
  match n with
  | Text _ => true
  | Value v => renderable v
  | El _ children => forallb mounts children
  end.

(** The page stays mounted through a trace of effects, rendered after each
    of them.  React batches some of these renders; for the traces of
    [handleUpload] that changes nothing, since only the first and the last
    render of a run can throw. *)
Fixpoint alive_through (st : State) (t : list Effect) : bool :=
  mounts (App st) &&
  match t with
  | [] => true
  | e :: rest => alive_through (apply_effect st e) rest
  end.

(** What is on screen after the trace: the tree of the last state, or
    nothing at all once a render has thrown. *)
Definition page_after (st : State) (t : list Effect) : option Node :=
  if alive_through st t then Some (App (apply_effects st t)) else None.

(** The download paths the screen offers. *)
Definition offered (page : option Node) : list string :=
  match page with
  | Some n => download_paths n
  | None => []
  end.

(** The sections the screen shows, as title and text. *)
Definition displayed (page : option Node) : list (string * string) :=
  match page with
  | Some n => map (fun x => (fst x, dom_text (snd x))) (sections n)
  | None => []
  end.

(** The three values the result fragment puts under its first three
    headings can all be rendered. *)
Definition results_renderable (v c b : JsValue) : bool :=
  renderable v && renderable (js_or c no_data) && renderable (js_or b no_data).

(** ** Overlapping runs *)

(** A run's effects up to its request, and those after it.  The handler is
    suspended between the two, at [await fetch(...)] and again at
    [await response.json()], with no effect of its own in between. *)
Fixpoint until_fetch (t : list Effect) : list Effect * list Effect :=
  match t with
  | [] => ([], [])
  | e :: rest =>
      if is_fetch e then ([e], rest)
      else let (sync, resumed) := until_fetch rest in (e :: sync, resumed)
  end.

(** The state a run leaves when [gap] holds the effects that other runs
    had while it was suspended. *)
Definition overlapped_upload (st : State) (event : Event) (net : FetchOutcome)
    (gap : list Effect) : State :=
  let (sync, resumed) := until_fetch (fst (handleUpload event net)) in
  apply_effects st (sync ++ gap ++ resumed).

(** The file name selected last: [current], unless the trace selects
    another. *)
Fixpoint last_selected (current : string) (t : list Effect) : string :=
  match t with
  | [] => current
  | SetFilename s :: rest => last_selected s rest
  | _ :: rest => last_selected current rest
  end.

End Frontend.

(* ================================================================== *)
(** * The interpretation engine's results and their merge              *)
(* ================================================================== *)

Module Pipeline.

(** The interpretation engine is not among the sources: the back end
    behind [POST /upload] is only named by the Dockerfile.  Everything in
    this module is written from sections 3 and 4.2 of the specification. *)

(** Modelled from the spec: the identity of a device, its name and its
    location (the engine's data model is missing). *)
Definition DeviceId : Type := (string * string)%type.

(** Modelled from the spec: a detected device (name, type, location hint). *)
Record Device : Type := mkDevice {
  dev_name : string;
  dev_type : string;
  dev_location : string
}.

Definition identity (d : Device) : DeviceId := (dev_name d, dev_location d).

(** Modelled from the spec: a routing or control path (source, destination,
    signal type); it names its two end devices by their identity. *)
Record RoutingPath : Type := mkPath {
  source : DeviceId;
  destination : DeviceId;
  signal : string
}.

(** Modelled from the spec: the InterpretationResult (device list, paths,
    ordered notes, summary narrative). *)
Record InterpretationResult : Type := mkResult {
  devices : list Device;
  paths : list RoutingPath;
  notes : list string;
  summary : string
}.

Definition id_eqb (a b : DeviceId) : bool :=
  String.eqb (fst a) (fst b) && String.eqb (snd a) (snd b).

Definition seen_in (ids : list DeviceId) (i : DeviceId) : bool :=
  existsb (id_eqb i) ids.

(** The device list holds a device of that identity. *)
Definition present (ds : list Device) (i : DeviceId) : bool :=
  seen_in (map identity ds) i.

(** Both ends of the path are in the device list. *)
Definition resolvable (ds : list Device) (p : RoutingPath) : bool :=
  present ds (source p) && present ds (destination p).

(** Modelled from the spec: the invariant of the InterpretationResult, no
    dangling reference. *)
Definition referential_integrity (r : InterpretationResult) : Prop :=
  forall p, In p (paths r) ->
    In (source p) (map identity (devices r)) /\
    In (destination p) (map identity (devices r)).

(** Modelled from the spec: the deduplication of the merge, by (name,
    location); the first device of each identity stays, in order. *)
Fixpoint dedup_from (seen : list DeviceId) (ds : list Device) : list Device :=
  match ds with
  | [] => []
  | d :: rest =>
      if seen_in seen (identity d) then dedup_from seen rest
      else d :: dedup_from (identity d :: seen) rest
  end.

Definition dedup (ds : list Device) : list Device := dedup_from [] ds.

(** Modelled from the spec: the note recorded for a dropped path (its
    wording is not fixed there). *)
Definition dropped_note (p : RoutingPath) : string :=
  "Dropped routing path " ++ fst (source p) ++ " (" ++ snd (source p) ++ ") -> "
  ++ fst (destination p) ++ " (" ++ snd (destination p) ++ ") [" ++ signal p
  ++ "]: device not in the device list".

(** Modelled from the spec: the merge policy of the engine.  Devices are
    deduplicated by identity; paths with an end that is absent after the
    deduplication are dropped, each with a note after the chunks' own notes.
    The specification leaves the merged summary open; the chunk summaries
    are kept in order, one per line. *)
Definition merge (chunks : list InterpretationResult) : InterpretationResult :=
  let ds := dedup (flat_map devices chunks) in
  let ps := flat_map paths chunks in
  {| devices := ds;
     paths := filter (resolvable ds) ps;
     notes := flat_map notes chunks
              ++ map dropped_note (filter (fun p => negb (resolvable ds p)) ps);
     summary := Js.sep_concat Js.newline (map summary chunks) |}.

(** ** The engine around the merge *)

(** Modelled from the spec: one segment of ExtractedContent (text, region
    hint, confidence). *)
Record Segment : Type := mkSegment {
  seg_text : string;
  seg_region : option string;
  seg_confidence : nat
}.

Definition ExtractedContent : Type := list Segment.

(** Modelled from the spec: what the language model returned for one
    chunk, once parsed against the schema; any field may be missing. *)
Record Raw : Type := mkRaw {
  raw_devices : option (list Device);
  raw_paths : option (list RoutingPath);
  raw_notes : option (list string);
  raw_summary : option string
}.

Inductive Reply : Type :=
| TimedOut                 (* the call exceeded the deadline *)
| Unparseable              (* the output does not fit the schema *)
| Parsed (raw : Raw).

Inductive InterpretError : Type :=
| InterpretationTimeoutError
| MalformedResponseError.

(** Modelled from the spec: the language-model service, a black box; its
    reply to a chunk at a given attempt. *)
Definition Model : Type := list Segment -> nat -> Reply.

Record Config : Type := mkConfig {
  chunk_size : nat;        (* segments per chunk, at least one is used *)
  max_repairs : nat        (* repair attempts after a malformed reply *)
}.

(** Modelled from the spec: chunking by segment groups, here groups of
    [S n] segments in order. *)
Fixpoint chunks_of (n : nat) (fuel : nat) (segs : list Segment) : list (list Segment) :=
  match fuel, segs with
  | _, [] => []
  | 0, _ => [segs]
  | S fuel', _ => firstn (S n) segs :: chunks_of n fuel' (skipn (S n) segs)
  end.

Definition chunk (cfg : Config) (content : ExtractedContent) : list (list Segment) :=
  chunks_of (pred (chunk_size cfg)) (List.length content) content.

(** Modelled from the spec: the call to the model, with a bounded number
    of repair attempts on a malformed reply. *)
Fixpoint ask (model : Model) (c : list Segment) (attempt repairs : nat)
  : InterpretError + Raw :=
  match model c attempt with
  | TimedOut => inl InterpretationTimeoutError
  | Parsed raw => inr raw
  | Unparseable =>
      match repairs with
      | 0 => inl MalformedResponseError
      | S repairs' => ask model c (S attempt) repairs'
      end
  end.

Definition gap_note (field : string) : string :=
  "The model response is missing the field " ++ field.

Definition or_gap {A} (field : string) (x : option A) (default : A)
  : A * list string :=
  match x with
  | Some a => (a, [])
  | None => (default, [gap_note field])
  end.

(** Modelled from the spec: graceful degradation; a missing field becomes
    an empty one and a note. *)
Definition complete (raw : Raw) : InterpretationResult :=
  let (ds, g1) := or_gap "devices" (raw_devices raw) [] in
  let (ps, g2) := or_gap "paths" (raw_paths raw) [] in
  let (ns, g3) := or_gap "notes" (raw_notes raw) [] in
  let (sm, g4) := or_gap "summary" (raw_summary raw) "" in
  {| devices := ds; paths := ps; notes := ns ++ g1 ++ g2 ++ g3 ++ g4; summary := sm |}.

Fixpoint interpret_chunks (cfg : Config) (model : Model) (cs : list (list Segment))
  : InterpretError + list InterpretationResult :=
  match cs with
  | [] => inr []
  | c :: rest =>
      match ask model c 0 (max_repairs cfg) with
      | inl e => inl e
      | inr raw =>
          match interpret_chunks cfg model rest with
          | inl e => inl e
          | inr rs => inr (complete raw :: rs)
          end
      end
  end.

(** Modelled from the spec: [interpret].  Every result, of one chunk or of
    many, leaves through the merge, which is where the engine enforces the
    invariant. *)
Definition interpret (cfg : Config) (model : Model) (content : ExtractedContent)
  : InterpretError + InterpretationResult :=
  match interpret_chunks cfg model (chunk cfg content) with
  | inl e => inl e
  | inr rs => inr (merge rs)
  end.

End Pipeline.

(* ================================================================== *)
(** * Sample inputs                                                    *)
(* ================================================================== *)

Module Samples.
Import Js Frontend.

Definition plan_a : File := mkFile "a.pdf" "%PDF-1.7 a".
Definition plan_b : File := mkFile "b.pdf" "%PDF-1.7 b".

(** {"summary":"Two zones","cable_pull_sheet":"AMP-1 -> SPK-1",
     "reflected_bom":"1x AMP, 1x SPK","notes":["check rack","verify gain"]} *)
Definition full_result : JsValue :=
  JObj [ ("summary", JStr "Two zones");
         ("cable_pull_sheet", JStr "AMP-1 -> SPK-1");
         ("reflected_bom", JStr "1x AMP, 1x SPK");
         ("notes", JArr [JStr "check rack"; JStr "verify gain"]) ].

Definition full_job : JobResult :=
  mkJobResult "Two zones" "AMP-1 -> SPK-1" "1x AMP, 1x SPK"
              ["check rack"; "verify gain"].

(** {"summary":"","cable_pull_sheet":"AMP-1 -> SPK-1",
     "reflected_bom":"1x AMP, 1x SPK","notes":[]} *)
Definition empty_summary_result : JsValue :=
  JObj [ ("summary", JStr "");
         ("cable_pull_sheet", JStr "AMP-1 -> SPK-1");
         ("reflected_bom", JStr "1x AMP, 1x SPK");
         ("notes", JArr []) ].

(** {"summary":"Two zones","cable_pull_sheet":"AMP-1 -> SPK-1",
     "reflected_bom":"1x AMP, 1x SPK"} *)
Definition result_without_notes : JsValue :=
  JObj [ ("summary", JStr "Two zones");
         ("cable_pull_sheet", JStr "AMP-1 -> SPK-1");
         ("reflected_bom", JStr "1x AMP, 1x SPK") ].

(** {"cable_pull_sheet":"AMP-1 -> SPK-1","reflected_bom":"1x AMP, 1x SPK"} *)
Definition result_without_summary_and_notes : JsValue :=
  JObj [ ("cable_pull_sheet", JStr "AMP-1 -> SPK-1");
         ("reflected_bom", JStr "1x AMP, 1x SPK") ].

(** The fields of [full_result], to build a larger body from. *)
Definition full_result_fields : list (string * JsValue) :=
  [ ("summary", JStr "Two zones");
    ("cable_pull_sheet", JStr "AMP-1 -> SPK-1");
    ("reflected_bom", JStr "1x AMP, 1x SPK");
    ("notes", JArr [JStr "check rack"; JStr "verify gain"]) ].

(** The page after [a.pdf] was uploaded and interpreted. *)
Definition after_plan_a : State :=
  after_upload initial [plan_a] (Response true (Json full_result)).

(** A second upload, which the server refuses (status 500). *)
Definition refused : FetchOutcome :=
  Response false (NotJson "Unexpected token I in JSON at position 0").

(** *** Two chunks of a plan set *)

Definition amp : Pipeline.Device := Pipeline.mkDevice "AMP-1" "amplifier" "rack".
Definition amp_again : Pipeline.Device := Pipeline.mkDevice "AMP-1" "power amplifier" "rack".
Definition amp_booth : Pipeline.Device := Pipeline.mkDevice "AMP-1" "amplifier" "booth".
Definition spk : Pipeline.Device := Pipeline.mkDevice "SPK-1" "speaker" "ceiling".

Definition amp_to_spk : Pipeline.RoutingPath :=
  Pipeline.mkPath ("AMP-1", "rack") ("SPK-1", "ceiling") "speaker-level".
Definition amp_to_ghost : Pipeline.RoutingPath :=
  Pipeline.mkPath ("AMP-1", "rack") ("DSP-1", "rack") "line-level".

Definition page1 : Pipeline.Segment := Pipeline.mkSegment "page 1" None 90.
Definition page2 : Pipeline.Segment := Pipeline.mkSegment "page 2" (Some "A3") 40.

(** The model finds the amplifier and both paths on page 1; on page 2,
    after one malformed reply, the amplifier again, a second amplifier and
    the speaker, and it leaves the notes out. *)
Definition two_page_model : Pipeline.Model :=
  fun c attempt =>
    match c with
    | [seg] =>
        if String.eqb (Pipeline.seg_text seg) "page 1" then
          Pipeline.Parsed
            (Pipeline.mkRaw (Some [amp]) (Some [amp_to_spk; amp_to_ghost])
                            (Some ["check rack"]) (Some "Rack"))
        else if Nat.eqb attempt 0 then Pipeline.Unparseable
        else
          Pipeline.Parsed
            (Pipeline.mkRaw (Some [amp_again; amp_booth; spk]) (Some [])
                            None (Some "Room"))
    | _ => Pipeline.Unparseable
    end.

Definition per_page : Pipeline.Config := Pipeline.mkConfig 1 2.

Definition two_page_result : Pipeline.InterpretationResult :=
  Pipeline.mkResult
    [amp; amp_booth; spk]
    [amp_to_spk]
    [ "check rack"; Pipeline.gap_note "notes"; Pipeline.dropped_note amp_to_ghost ]
    "Rack
Room".

End Samples.

(* ================================================================== *)
(** * Properties of the component                                      *)
(* ================================================================== *)

Module FrontendFacts.
Import Js Frontend.

Lemma apply_effects_app (st : State) (t1 t2 : list Effect) :
  apply_effects st (t1 ++ t2) = apply_effects (apply_effects st t1) t2.
Proof. unfold apply_effects. apply fold_left_app. Qed.

Lemma loading_after_SetLoading (st : State) (t : list Effect) (b : bool) :
  loading (apply_effects st (t ++ [SetLoading b])) = b.
Proof. rewrite apply_effects_app. reflexivity. Qed.

(** Whatever the body does, a [try] whose handler only alerts and whose
    [finally] only clears [loading] completes normally, and clearing
    [loading] is the last thing it does. *)
Lemma try_catch_finally_ends (body : M unit) :
  exists t,
    try_catch_finally body (fun error => emit (Alert error)) (emit (SetLoading false))
    = (t ++ [SetLoading false], inr tt).
Proof.
  destruct body as [t [e | []]]; cbn.
  - exists (t ++ [Alert e]). reflexivity.
  - exists t. reflexivity.
Qed.

(** C9.  Once a file is selected, every run of [handleUpload] (whatever the
    request did: rejected, not ok, not JSON, JSON of any shape) completes
    normally, its last effect is [setLoading(false)], and [loading] is
    [false] in the state it leaves. *)
Theorem handleUpload_resets_loading (st : State) (file : File) (others : list File)
    (net : FetchOutcome) :
  exists t,
    handleUpload (file :: others) net
    = ([SetFilename (name file); SetLoading true] ++ t ++ [SetLoading false], inr tt)
    /\ loading (after_upload st (file :: others) net) = false.
Proof.
  unfold after_upload, handleUpload. cbn [nth_error].
  match goal with
  | |- context [try_catch_finally ?b ?h ?f] =>
      destruct (try_catch_finally_ends b) as [t Ht]; rewrite Ht
  end.
  exists t. cbn [bind emit fst app]. split; [reflexivity |].
  change (SetFilename (name file) :: SetLoading true :: t ++ [SetLoading false])
    with ((SetFilename (name file) :: SetLoading true :: t) ++ [SetLoading false]).
  apply loading_after_SetLoading.
Qed.

(** C10.  With no file selected the handler returns at once: it has no
    effect at all (so no setter runs and no request is issued) and the six
    state cells keep their values. *)
Theorem handleUpload_without_file (st : State) (net : FetchOutcome) :
  handleUpload [] net = ([], inr tt)
  /\ after_upload st [] net = st
  /\ existsb is_fetch (fst (handleUpload [] net)) = false.
Proof. repeat split. Qed.

Lemma elems_to_strings_strings (l : list string) :
  elems_to_strings (map JStr l) = Some l.
Proof.
  induction l as [| s l IH]; [reflexivity |].
  cbn. rewrite IH. reflexivity.
Qed.

(** C6.  When the response carries a JobResult (summary, cable_pull_sheet
    and reflected_bom as text, notes as a list of strings), the handler
    reads these four fields and nothing else of the response: each goes to
    its state cell, the notes joined in order one per line, and the run ends
    without an error. *)
Theorem handleUpload_consumes_job_result (file : File) (others : list File)
    (data : JsValue) (r : JobResult) :
  carries data r ->
  handleUpload (file :: others) (Response true (Json data))
  = ([ SetFilename (name file); SetLoading true;
       Fetch "/upload" "POST" file;
       SetSummary (JStr (jr_summary r));
       SetPullSheet (JStr (jr_cable_pull_sheet r));
       SetBOM (JStr (jr_reflected_bom r));
       SetNotes (sep_concat newline (jr_notes r));
       SetLoading false ], inr tt).
Proof.
  destruct data as [| | | | | |props]; cbn [carries]; try contradiction.
  intros (Hs & Hc & Hb & Hn).
  unfold handleUpload. cbn -[assoc]. rewrite Hs. cbn -[assoc].
  rewrite Hc. cbn -[assoc]. rewrite Hb. cbn -[assoc]. rewrite Hn.
  cbn -[assoc]. rewrite elems_to_strings_strings.
  reflexivity.
Qed.

Lemma handleUpload_consumes_job_result_witness :
  carries Samples.full_result Samples.full_job /\
  handleUpload [Samples.plan_a] (Response true (Json Samples.full_result))
  = ([ SetFilename "a.pdf"; SetLoading true;
       Fetch "/upload" "POST" Samples.plan_a;
       SetSummary (JStr "Two zones");
       SetPullSheet (JStr "AMP-1 -> SPK-1");
       SetBOM (JStr "1x AMP, 1x SPK");
       SetNotes (sep_concat newline ["check rack"; "verify gain"]);
       SetLoading false ], inr tt).
Proof.
  assert (H : carries Samples.full_result Samples.full_job)
    by (cbn; repeat split; reflexivity).
  split; [exact H |].
  exact (handleUpload_consumes_job_result Samples.plan_a [] _ _ H).
Defined.

(** ** The name a download is saved under *)

Lemma split_without_sep (c : ascii) (s : string) :
  has_char c s = false -> split c s = [s].
Proof.
  induction s as [| a s IH]; cbn [has_char split]; [reflexivity |].
  intros H. apply orb_false_iff in H. destruct H as [Ha Hs].
  rewrite Ha, (IH Hs). reflexivity.
Qed.

Lemma has_char_app (c : ascii) (a b : string) :
  has_char c (a ++ b) = has_char c a || has_char c b.
Proof.
  induction a as [| x a IH]; cbn [append has_char]; [reflexivity |].
  rewrite IH. apply orb_assoc.
Qed.

(** X12.  [path.split('/').pop()] of an artifact path is the artifact name
    of the naming scheme, for a file name without a slash. *)
Lemma download_name_follows_scheme (original : string) (x : Suffix * Ext) :
  has_char "/" original = false ->
  download (downloadFile (artifact_path original x))
  = JStr (artifact_name original x).
Proof.
  intros H.
  assert (Hn : has_char "/" (artifact_name original x) = false).
  { unfold artifact_name. rewrite has_char_app, H.
    destruct x as [[| | |] [|]]; reflexivity. }
  unfold downloadFile, artifact_path. cbn [download].
  cbn [append split Ascii.eqb Bool.eqb].
  rewrite (split_without_sep _ _ Hn). reflexivity.
Qed.

(** ** Runs on an ok response with a JSON body *)

Lemma get_prop_defined (data : JsValue) (k : string) (v : JsValue) :
  get_prop data k = inr v -> forall k', exists v', get_prop data k' = inr v'.
Proof.
  destruct data; cbn; intros H k'; try discriminate; eexists; reflexivity.
Qed.

(** The parsed value is [null]: the first property read throws. *)
Lemma handleUpload_json_nullish (file : File) (others : list File)
    (data : JsValue) (e : JsError) :
  get_prop data "summary" = inl e ->
  handleUpload (file :: others) (Response true (Json data))
  = ([ SetFilename (name file); SetLoading true; Fetch "/upload" "POST" file;
       Alert e; SetLoading false ], inr tt).
Proof.
  intros H. unfold handleUpload. cbn -[get_prop]. rewrite H. reflexivity.
Qed.

(** Any other parsed value: three setters run, then [join] decides. *)
Lemma handleUpload_json (file : File) (others : list File)
    (data v c b n : JsValue) :
  get_prop data "summary" = inr v ->
  get_prop data "cable_pull_sheet" = inr c ->
  get_prop data "reflected_bom" = inr b ->
  get_prop data "notes" = inr n ->
  handleUpload (file :: others) (Response true (Json data))
  = ([ SetFilename (name file); SetLoading true; Fetch "/upload" "POST" file;
       SetSummary v; SetPullSheet c; SetBOM b;
       match call_join n newline with
       | inr s => SetNotes s
       | inl e => Alert e
       end;
       SetLoading false ], inr tt).
Proof.
  intros Hv Hc Hb Hn. unfold handleUpload. cbn -[get_prop call_join].
  rewrite Hv. cbn -[get_prop call_join]. rewrite Hc. cbn -[get_prop call_join].
  rewrite Hb. cbn -[get_prop call_join]. rewrite Hn. cbn -[get_prop call_join].
  destruct (call_join n newline); reflexivity.
Qed.

(** The paths and sections of the result fragment. *)
Lemma download_paths_results (st : State) :
  download_paths (results st)
  = map (artifact_path (filename st)) six_artifacts.
Proof. reflexivity. Qed.

Lemma sections_results (st : State) :
  sections (results st)
  = [ ("System Summary", js_or (summary st) no_data);
      ("Cable Pull Sheet", js_or (pullSheet st) no_data);
      ("Reflected BOM", js_or (bom st) no_data);
      ("System Verification Notes", js_or (JStr (notes st)) no_data) ].
Proof. reflexivity. Qed.

(** The render gate [!loading && summary && (...)]. *)
Lemma download_paths_App (st : State) :
  download_paths (App st)
  = if negb (loading st) && truthy (summary st)
    then map (artifact_path (filename st)) six_artifacts
    else [].
Proof.
  unfold App, js_and. cbn [truthy].
  destruct (loading st); cbn [negb andb]; [reflexivity |].
  destruct (truthy (summary st)); reflexivity.
Qed.

Lemma sections_App (st : State) :
  sections (App st)
  = if negb (loading st) && truthy (summary st) then sections (results st) else [].
Proof.
  unfold App, js_and. cbn [truthy].
  destruct (loading st); cbn [negb andb]; [reflexivity |].
  destruct (truthy (summary st)); reflexivity.
Qed.

(** The state a run leaves, cell by cell. *)
Lemma state_after_json_ok (st : State) (file : File) (v c b : JsValue) (s : string) :
  apply_effects st
    [ SetFilename (name file); SetLoading true; Fetch "/upload" "POST" file;
      SetSummary v; SetPullSheet c; SetBOM b; SetNotes s; SetLoading false ]
  = {| summary := v; pullSheet := c; bom := b; notes := s;
       filename := name file; loading := false |}.
Proof. reflexivity. Qed.

Lemma state_after_json_throw (st : State) (file : File) (v c b : JsValue) (e : JsError) :
  apply_effects st
    [ SetFilename (name file); SetLoading true; Fetch "/upload" "POST" file;
      SetSummary v; SetPullSheet c; SetBOM b; Alert e; SetLoading false ]
  = {| summary := v; pullSheet := c; bom := b; notes := notes st;
       filename := name file; loading := false |}.
Proof. reflexivity. Qed.

(** A run that reported no error had an ok response with a JSON body that
    is not [null] and whose notes could be joined. *)
Lemma succeeded_inv (file : File) (others : list File) (net : FetchOutcome) :
  succeeded (handleUpload (file :: others) net) = true ->
  exists data v c b n s,
    net = Response true (Json data) /\
    get_prop data "summary" = inr v /\
    get_prop data "cable_pull_sheet" = inr c /\
    get_prop data "reflected_bom" = inr b /\
    get_prop data "notes" = inr n /\
    call_join n newline = inr s.
Proof.
  destruct net as [message | [|] [message | data]];
    try (cbn; discriminate).
  destruct (get_prop data "summary") as [e | v] eqn:Hv.
  - rewrite (handleUpload_json_nullish _ _ _ _ Hv). cbn. discriminate.
  - destruct (get_prop_defined _ _ _ Hv "cable_pull_sheet") as [c Hc].
    destruct (get_prop_defined _ _ _ Hv "reflected_bom") as [b Hb].
    destruct (get_prop_defined _ _ _ Hv "notes") as [n Hn].
    rewrite (handleUpload_json _ _ _ _ _ _ _ Hv Hc Hb Hn).
    destruct (call_join n newline) as [e | s] eqn:Hj.
    + cbn. discriminate.
    + intros _. exists data, v, c, b, n, s. repeat split; assumption.
Qed.

(** X1.  Of the parsed body, a run sees the four fields and nothing else:
    two bodies that agree on [summary], [cable_pull_sheet], [reflected_bom]
    and [notes] give the same run, effect for effect. *)
Lemma handleUpload_reads_four_fields (event : Event) (data data' : JsValue) :
  (forall k, In k ["summary"; "cable_pull_sheet"; "reflected_bom"; "notes"] ->
             get_prop data k = get_prop data' k) ->
  handleUpload event (Response true (Json data))
  = handleUpload event (Response true (Json data')).
Proof.
  intros H. destruct event as [| file others]; [reflexivity |].
  assert (Hs := H "summary"). assert (Hc := H "cable_pull_sheet").
  assert (Hb := H "reflected_bom"). assert (Hn := H "notes").
  cbn [In] in Hs, Hc, Hb, Hn.
  destruct (get_prop data "summary") as [e | v] eqn:Hv.
  - rewrite (handleUpload_json_nullish _ _ data e Hv).
    rewrite (handleUpload_json_nullish _ _ data' e); [reflexivity |].
    symmetry. apply Hs. tauto.
  - destruct (get_prop_defined _ _ _ Hv "cable_pull_sheet") as [c Hc'].
    destruct (get_prop_defined _ _ _ Hv "reflected_bom") as [b Hb'].
    destruct (get_prop_defined _ _ _ Hv "notes") as [n Hn'].
    rewrite (handleUpload_json _ _ data v c b n Hv Hc' Hb' Hn').
    rewrite (handleUpload_json _ _ data' v c b n); try reflexivity.
    + symmetry. apply Hs. tauto.
    + rewrite <- Hc'. symmetry. apply Hc. tauto.
    + rewrite <- Hb'. symmetry. apply Hb. tauto.
    + rewrite <- Hn'. symmetry. apply Hn. tauto.
Qed.

(** ** From the tree to the screen *)

Lemma falsy_renderable (v : JsValue) : truthy v = false -> renderable v = true.
Proof. destruct v; cbn; intros H; try reflexivity; discriminate H. Qed.

(** The tree mounts while loading, or with a falsy summary, or when the
    three values under the first three headings are renderable. *)
Lemma mounts_App (st : State) :
  mounts (App st)
  = loading st || negb (truthy (summary st))
    || results_renderable (summary st) (pullSheet st) (bom st).
Proof.
  unfold App, js_and, results_renderable. cbn [truthy].
  destruct (loading st); [reflexivity |]. cbn [negb orb].
  destruct (truthy (summary st)) eqn:Hs.
  - cbn [negb orb]. unfold results, renderSection. cbn [mounts forallb renderable].
    unfold js_or at 1. rewrite Hs.
    assert (Hn : renderable (js_or (JStr (notes st)) no_data) = true)
      by (unfold js_or; destruct (truthy (JStr (notes st))); reflexivity).
    rewrite ?Hn.
    destruct (renderable (summary st)), (renderable (js_or (pullSheet st) no_data)),
             (renderable (js_or (bom st) no_data)); reflexivity.
  - cbn [mounts forallb renderable negb orb].
    rewrite (falsy_renderable _ Hs). reflexivity.
Qed.

(** Through a run that went through, and through one whose [join] threw,
    the page is rendered with [loading] set until the last effect: it stays
    mounted exactly when it was mounted before and the last state mounts. *)
Lemma alive_through_json_ok (st : State) (file : File) (v c b : JsValue) (s : string) :
  alive_through st
    [ SetFilename (name file); SetLoading true; Fetch "/upload" "POST" file;
      SetSummary v; SetPullSheet c; SetBOM b; SetNotes s; SetLoading false ]
  = mounts (App st) && (negb (truthy v) || results_renderable v c b).
Proof.
  cbn [alive_through apply_effect]. rewrite !mounts_App.
  cbn [loading summary pullSheet bom orb].
  destruct (loading st || negb (truthy (summary st))
            || results_renderable (summary st) (pullSheet st) (bom st));
    cbn [andb]; [| reflexivity].
  rewrite andb_true_r. reflexivity.
Qed.

Lemma alive_through_json_throw (st : State) (file : File) (v c b : JsValue) (e : JsError) :
  alive_through st
    [ SetFilename (name file); SetLoading true; Fetch "/upload" "POST" file;
      SetSummary v; SetPullSheet c; SetBOM b; Alert e; SetLoading false ]
  = mounts (App st) && (negb (truthy v) || results_renderable v c b).
Proof.
  cbn [alive_through apply_effect]. rewrite !mounts_App.
  cbn [loading summary pullSheet bom orb].
  destruct (loading st || negb (truthy (summary st))
            || results_renderable (summary st) (pullSheet st) (bom st));
    cbn [andb]; [| reflexivity].
  rewrite andb_true_r. reflexivity.
Qed.

(** C5, as amended.  Take an upload that completes without an error, on a
    page that is on screen when the file is selected, with no other run in
    between.  The response carries no reference; the screen offers artifact
    references exactly when the received summary is truthy and the summary,
    pull sheet and BOM to display are renderable: then they are the six of
    the specification, in its order, each the path [/files/] followed by
    [{original-filename}_{suffix}.{ext}].  With a falsy summary the render
    gate offers none, and with an object among the three values the render
    throws and nothing is left on screen. *)
Theorem successful_upload_artifact_references (st : State) (file : File)
    (others : list File) (net : FetchOutcome) :
  succeeded (handleUpload (file :: others) net) = true ->
  mounts (App st) = true ->
  exists data v c b,
    net = Response true (Json data) /\
    get_prop data "summary" = inr v /\
    get_prop data "cable_pull_sheet" = inr c /\
    get_prop data "reflected_bom" = inr b /\
    offered (page_after st (fst (handleUpload (file :: others) net)))
    = if truthy v && results_renderable v c b
      then map (artifact_path (name file)) six_artifacts
      else [].
Proof.
  intros H Hst.
  destruct (succeeded_inv _ _ _ H) as (data & v & c & b & n & s & -> & Hv & Hc & Hb & Hn & Hj).
  exists data, v, c, b. repeat split; try assumption.
  rewrite (handleUpload_json _ _ _ _ _ _ _ Hv Hc Hb Hn), Hj. cbn [fst].
  unfold page_after. rewrite alive_through_json_ok, Hst, state_after_json_ok.
  cbn [andb]. destruct (truthy v) eqn:Ht; cbn [negb orb andb].
  - destruct (results_renderable v c b); cbn [offered]; [| reflexivity].
    rewrite download_paths_App. cbn [loading summary filename negb andb].
    rewrite Ht. reflexivity.
  - cbn [offered]. rewrite download_paths_App. cbn [loading summary negb andb].
    rewrite Ht. reflexivity.
Qed.

Lemma successful_upload_artifact_references_witness :
  succeeded (handleUpload [Samples.plan_a] (Response true (Json Samples.full_result))) = true /\
  mounts (App initial) = true /\
  exists data v c b,
    Response true (Json Samples.full_result) = Response true (Json data) /\
    get_prop data "summary" = inr v /\
    get_prop data "cable_pull_sheet" = inr c /\
    get_prop data "reflected_bom" = inr b /\
    offered (page_after initial
               (fst (handleUpload [Samples.plan_a]
                       (Response true (Json Samples.full_result)))))
    = if truthy v && results_renderable v c b
      then map (artifact_path "a.pdf") six_artifacts
      else [].
Proof.
  split; [reflexivity |]. split; [reflexivity |].
  apply (successful_upload_artifact_references initial Samples.plan_a []
           (Response true (Json Samples.full_result))); reflexivity.
Defined.

(** C5, as stated, fails: the upload of [a.pdf] answered with an empty
    summary completes without an error, and the page offers no artifact
    reference at all. *)
Lemma empty_summary_offers_no_reference :
  succeeded (handleUpload [Samples.plan_a]
               (Response true (Json Samples.empty_summary_result))) = true /\
  download_paths (App (after_upload initial [Samples.plan_a]
                         (Response true (Json Samples.empty_summary_result)))) = [] /\
  ~ (List.length (download_paths (App (after_upload initial [Samples.plan_a]
                         (Response true (Json Samples.empty_summary_result))))) = 6).
Proof. repeat split. cbn. discriminate. Qed.

(** C8, as amended.  On an ok response whose body parses to anything but
    [null] and whose notes are absent or not an array, the handler issues
    the summary, pull-sheet and BOM updates, then [join] throws, the alert
    runs and [loading] is cleared; the notes keep their prior value.  On a
    page that was on screen, with no other run in between, the screen then
    shows the three new sections (with the prior notes) exactly when the new
    summary is truthy and the three values to display are renderable;
    with a falsy summary it shows no section, and with an object among the
    three values the render throws and nothing is left on screen. *)
Theorem unusable_notes_partial_result (st : State) (file : File)
    (others : list File) (data v : JsValue) :
  get_prop data "summary" = inr v ->
  notes_unusable data = true ->
  mounts (App st) = true ->
  exists c b e,
    get_prop data "cable_pull_sheet" = inr c /\
    get_prop data "reflected_bom" = inr b /\
    handleUpload (file :: others) (Response true (Json data))
    = ([ SetFilename (name file); SetLoading true; Fetch "/upload" "POST" file;
         SetSummary v; SetPullSheet c; SetBOM b; Alert e; SetLoading false ],
       inr tt) /\
    displayed (page_after st
                 (fst (handleUpload (file :: others) (Response true (Json data)))))
    = if truthy v && results_renderable v c b
      then [ ("System Summary", dom_text v);
             ("Cable Pull Sheet", dom_text (js_or c no_data));
             ("Reflected BOM", dom_text (js_or b no_data));
             ("System Verification Notes", dom_text (js_or (JStr (notes st)) no_data)) ]
      else [].
Proof.
  intros Hv Hbad Hst.
  destruct (get_prop_defined _ _ _ Hv "cable_pull_sheet") as [c Hc].
  destruct (get_prop_defined _ _ _ Hv "reflected_bom") as [b Hb].
  destruct (get_prop_defined _ _ _ Hv "notes") as [n Hn].
  assert (Hj : exists e, call_join n newline = inl e).
  { unfold notes_unusable in Hbad. rewrite Hn in Hbad.
    destruct n; try discriminate; cbn; eexists; reflexivity. }
  destruct Hj as [e Hj].
  exists c, b, e. repeat split; try assumption.
  - rewrite (handleUpload_json _ _ _ _ _ _ _ Hv Hc Hb Hn), Hj. reflexivity.
  - rewrite (handleUpload_json _ _ _ _ _ _ _ Hv Hc Hb Hn), Hj. cbn [fst].
    unfold page_after. rewrite alive_through_json_throw, Hst, state_after_json_throw.
    cbn [andb]. destruct (truthy v) eqn:Ht; cbn [negb orb andb].
    + destruct (results_renderable v c b); cbn [displayed]; [| reflexivity].
      rewrite sections_App, sections_results.
      cbn [loading summary pullSheet bom notes negb andb].
      rewrite Ht. unfold js_or at 1. rewrite Ht. reflexivity.
    + cbn [displayed]. rewrite sections_App.
      cbn [loading summary negb andb]. rewrite Ht. reflexivity.
Qed.

Lemma unusable_notes_partial_result_witness :
  get_prop Samples.result_without_notes "summary" = inr (JStr "Two zones") /\
  notes_unusable Samples.result_without_notes = true /\
  mounts (App initial) = true /\
  exists c b e,
    get_prop Samples.result_without_notes "cable_pull_sheet" = inr c /\
    get_prop Samples.result_without_notes "reflected_bom" = inr b /\
    handleUpload [Samples.plan_a] (Response true (Json Samples.result_without_notes))
    = ([ SetFilename "a.pdf"; SetLoading true; Fetch "/upload" "POST" Samples.plan_a;
         SetSummary (JStr "Two zones"); SetPullSheet c; SetBOM b; Alert e;
         SetLoading false ], inr tt) /\
    displayed (page_after initial
                 (fst (handleUpload [Samples.plan_a]
                         (Response true (Json Samples.result_without_notes)))))
    = if truthy (JStr "Two zones") && results_renderable (JStr "Two zones") c b
      then [ ("System Summary", dom_text (JStr "Two zones"));
             ("Cable Pull Sheet", dom_text (js_or c no_data));
             ("Reflected BOM", dom_text (js_or b no_data));
             ("System Verification Notes", dom_text (js_or (JStr (notes initial)) no_data)) ]
      else [].
Proof.
  split; [reflexivity |]. split; [reflexivity |]. split; [reflexivity |].
  apply (unusable_notes_partial_result initial Samples.plan_a []
           Samples.result_without_notes (JStr "Two zones")); reflexivity.
Defined.

(** C8, as stated, fails: a response without notes and without summary
    parses, the three updates are issued and the alert runs, yet no section
    is on the page, so the new pull sheet and BOM are not displayed. *)
Lemma unusable_notes_nothing_displayed :
  notes_unusable Samples.result_without_summary_and_notes = true /\
  handleUpload [Samples.plan_a]
    (Response true (Json Samples.result_without_summary_and_notes))
  = ([ SetFilename "a.pdf"; SetLoading true; Fetch "/upload" "POST" Samples.plan_a;
       SetSummary JUndefined; SetPullSheet (JStr "AMP-1 -> SPK-1");
       SetBOM (JStr "1x AMP, 1x SPK"); Alert (ReadOfNullish "join");
       SetLoading false ], inr tt) /\
  sections (App (after_upload initial [Samples.plan_a]
                   (Response true (Json Samples.result_without_summary_and_notes)))) = [] /\
  ~ shows_new_data
      (after_upload initial [Samples.plan_a]
         (Response true (Json Samples.result_without_summary_and_notes)))
      Samples.result_without_summary_and_notes.
Proof.
  repeat split.
  intros (s & c & b & _ & _ & _ & H & _). exact H.
Qed.

(** ** A failed upload *)




(** C2, at its failing input.  After [a.pdf] was interpreted, the upload of
    [b.pdf] is refused: the handler reports the one failure and reads nothing
    of the response, yet the page it leaves offers six artifact references
    named after [b.pdf], beside the sections of [a.pdf]. *)
Theorem failed_upload_offers_references :
  handleUpload [Samples.plan_b] Samples.refused
  = ([ SetFilename "b.pdf"; SetLoading true; Fetch "/upload" "POST" Samples.plan_b;
       Alert UploadFailed; SetLoading false ], inr tt) /\
  succeeded (handleUpload [Samples.plan_b] Samples.refused) = false /\
  download_paths (App (after_upload Samples.after_plan_a [Samples.plan_b] Samples.refused))
  = [ "/files/b.pdf_pullsheet.pdf"; "/files/b.pdf_pullsheet.csv";
      "/files/b.pdf_bom.pdf"; "/files/b.pdf_bom.csv";
      "/files/b.pdf_summary.pdf"; "/files/b.pdf_verification.pdf" ] /\
  sections (App (after_upload Samples.after_plan_a [Samples.plan_b] Samples.refused))
  = sections (App Samples.after_plan_a).
Proof. repeat split. Qed.

End FrontendFacts.

(* ================================================================== *)
(** * Further properties of the component                              *)
(* ================================================================== *)

Module FrontendMore.
Import Js Frontend FrontendFacts.

(** ** The three shapes of a run *)

(** Every run on a selected file has one of three traces: the request or
    the first property read failed; everything went through; or the three
    first setters ran and [join] threw. *)
Lemma run_shapes (file : File) (others : list File) (net : FetchOutcome) :
  (exists e, handleUpload (file :: others) net = (trace_failed file e, inr tt))
  \/ (exists v c b s, handleUpload (file :: others) net = (trace_ok file v c b s, inr tt))
  \/ (exists v c b e, handleUpload (file :: others) net = (trace_partial file v c b e, inr tt)).
Proof.
  destruct net as [message | [|] [message | data]];
    try (left; eexists; reflexivity).
  destruct (get_prop data "summary") as [e | v] eqn:Hv.
  - left. exists e. apply handleUpload_json_nullish. assumption.
  - destruct (get_prop_defined _ _ _ Hv "cable_pull_sheet") as [c Hc].
    destruct (get_prop_defined _ _ _ Hv "reflected_bom") as [b Hb].
    destruct (get_prop_defined _ _ _ Hv "notes") as [n Hn].
    rewrite (handleUpload_json _ _ _ _ _ _ _ Hv Hc Hb Hn).
    destruct (call_join n newline) as [e | s].
    + right. right. exists v, c, b, e. reflexivity.
    + right. left. exists v, c, b, s. reflexivity.
Qed.

(** X2.  Whatever the outcome, a run on a selected file issues exactly one
    request, a POST to [/upload] carrying that file, right after
    [setFilename] and [setLoading(true)]; it never retries. *)
Theorem upload_issues_one_request (file : File) (others : list File)
    (net : FetchOutcome) :
  exists rest,
    fst (handleUpload (file :: others) net)
    = [ SetFilename (name file); SetLoading true; Fetch "/upload" "POST" file ] ++ rest
    /\ existsb is_fetch rest = false.
Proof.
  destruct (run_shapes file others net)
    as [(e & ->) | [(v & c & b & s & ->) | (v & c & b & e & ->)]];
    eexists; split; reflexivity.
Qed.

(** X3.  A run either raises no alert and calls the four result setters in
    source order, or raises exactly one alert and never calls [setNotes]
    (it then called none of the result setters, or the first three). *)
Theorem upload_alerts_once_or_sets_all (file : File) (others : list File)
    (net : FetchOutcome) :
  (succeeded (handleUpload (file :: others) net) = true
   /\ filter is_alert (fst (handleUpload (file :: others) net)) = []
   /\ exists v c b s,
        filter is_result_setter (fst (handleUpload (file :: others) net))
        = [SetSummary v; SetPullSheet c; SetBOM b; SetNotes s])
  \/
  (succeeded (handleUpload (file :: others) net) = false
   /\ (exists e, filter is_alert (fst (handleUpload (file :: others) net)) = [Alert e])
   /\ existsb is_set_notes (fst (handleUpload (file :: others) net)) = false
   /\ (filter is_result_setter (fst (handleUpload (file :: others) net)) = []
       \/ exists v c b,
            filter is_result_setter (fst (handleUpload (file :: others) net))
            = [SetSummary v; SetPullSheet c; SetBOM b])).
Proof.
  destruct (run_shapes file others net)
    as [(e & ->) | [(v & c & b & s & ->) | (v & c & b & e & ->)]].
  - right. repeat split; [exists e; reflexivity | left; reflexivity].
  - left. repeat split. exists v, c, b, s. reflexivity.
  - right. repeat split; [exists e; reflexivity |].
    right. exists v, c, b. reflexivity.
Qed.

(** X4.  A run reports no error exactly when the response is ok, its body
    parses to a value other than [null], and the [notes] of that value can
    be joined. *)
Theorem upload_succeeds_iff (file : File) (others : list File) (net : FetchOutcome) :
  succeeded (handleUpload (file :: others) net) = true
  <-> exists data v n s,
        net = Response true (Json data)
        /\ get_prop data "summary" = inr v
        /\ get_prop data "notes" = inr n
        /\ call_join n newline = inr s.
Proof.
  split.
  - intros H.
    destruct (succeeded_inv _ _ _ H) as (data & v & c & b & n & s & Hnet & Hv & _ & _ & Hn & Hj).
    exists data, v, n, s. repeat split; assumption.
  - intros (data & v & n & s & -> & Hv & Hn & Hj).
    destruct (get_prop_defined _ _ _ Hv "cable_pull_sheet") as [c Hc].
    destruct (get_prop_defined _ _ _ Hv "reflected_bom") as [b Hb].
    rewrite (handleUpload_json _ _ _ _ _ _ _ Hv Hc Hb Hn), Hj. reflexivity.
Qed.

(** *** Runs that overlap *)

Lemma until_fetch_app (t : list Effect) :
  fst (until_fetch t) ++ snd (until_fetch t) = t.
Proof.
  induction t as [| e t IH]; [reflexivity |].
  cbn [until_fetch]. destruct (is_fetch e); [reflexivity |].
  destruct (until_fetch t) as [sync resumed]. cbn [fst snd app] in *.
  rewrite IH. reflexivity.
Qed.

(** With nothing in the gap, an overlapped run is the plain run. *)
Lemma overlapped_upload_nil (st : State) (event : Event) (net : FetchOutcome) :
  overlapped_upload st event net [] = after_upload st event net.
Proof.
  unfold overlapped_upload, after_upload.
  pose proof (until_fetch_app (fst (handleUpload event net))) as H.
  destruct (until_fetch (fst (handleUpload event net))) as [sync resumed].
  cbn [fst snd app] in *. rewrite H. reflexivity.
Qed.

Lemma last_selected_app (current : string) (t1 t2 : list Effect) :
  last_selected current (t1 ++ t2) = last_selected (last_selected current t1) t2.
Proof.
  revert current. induction t1 as [| e t1 IH]; intros current; [reflexivity |].
  destruct e; cbn [app last_selected]; apply IH.
Qed.

Lemma filename_apply_effects (st : State) (t : list Effect) :
  filename (apply_effects st t) = last_selected (filename st) t.
Proof.
  revert st. induction t as [| e t IH]; intros st; [reflexivity |].
  change (apply_effects st (e :: t)) with (apply_effects (apply_effect st e) t).
  rewrite IH. destruct e; reflexivity.
Qed.

(** X5.  After a run on a selected file, successful or not, the [filename]
    cell holds the file name selected last: the name of the run's own file
    when no file was selected while its request was in flight, and otherwise
    the name selected last in the meantime. *)
Theorem filename_follows_selection (st : State) (file : File) (others : list File)
    (net : FetchOutcome) (gap : list Effect) :
  filename (overlapped_upload st (file :: others) net gap)
  = last_selected (name file) gap.
Proof.
  unfold overlapped_upload.
  destruct (run_shapes file others net)
    as [(e & ->) | [(v & c & b & s & ->) | (v & c & b & e & ->)]];
    cbn [fst until_fetch is_fetch trace_failed trace_ok trace_partial];
    rewrite filename_apply_effects, !last_selected_app; reflexivity.
Qed.

(** X6.  A run that reports no error overwrites all six cells: the state
    it leaves does not depend on the state it started from. *)
Theorem successful_upload_forgets_prior_state (st st' : State) (file : File)
    (others : list File) (net : FetchOutcome) :
  succeeded (handleUpload (file :: others) net) = true ->
  after_upload st (file :: others) net = after_upload st' (file :: others) net.
Proof.
  intros H. unfold after_upload.
  destruct (run_shapes file others net)
    as [(e & Hr) | [(v & c & b & s & Hr) | (v & c & b & e & Hr)]];
    rewrite Hr in H |- *; try discriminate H; reflexivity.
Qed.

Lemma successful_upload_forgets_prior_state_witness :
  succeeded (handleUpload [Samples.plan_b] (Response true (Json Samples.full_result))) = true
  /\ after_upload initial [Samples.plan_b] (Response true (Json Samples.full_result))
     = after_upload Samples.after_plan_a [Samples.plan_b]
         (Response true (Json Samples.full_result)).
Proof.
  split; [reflexivity |].
  apply (successful_upload_forgets_prior_state initial Samples.after_plan_a
           Samples.plan_b [] (Response true (Json Samples.full_result))).
  reflexivity.
Defined.

(** X7.  Running the same upload again with the same outcome changes
    nothing: the page is as after the first run, on every path. *)
Theorem reupload_idempotent (st : State) (event : Event) (net : FetchOutcome) :
  after_upload (after_upload st event net) event net = after_upload st event net.
Proof.
  destruct event as [| file others]; [reflexivity |].
  unfold after_upload.
  destruct (run_shapes file others net)
    as [(e & ->) | [(v & c & b & s & ->) | (v & c & b & e & ->)]]; reflexivity.
Qed.

(** ** The page *)

(** X8.  The processing notice is on the page exactly while [loading] is
    set, and while it is set the page shows no result section and offers no
    download, whatever result the state holds. *)
Theorem loading_hides_results (st : State) :
  (In processing_text (texts (App st)) <-> loading st = true)
  /\ (loading st = true ->
      sections (App st) = [] /\ download_paths (App st) = []).
Proof.
  split.
  - unfold App, js_and. cbn [truthy].
    destruct (loading st); cbn [negb].
    + split; [reflexivity |]. intros _. cbn. tauto.
    + destruct (truthy (summary st)); cbn; split; intros H;
        try discriminate H;
        repeat (destruct H as [H | H]; try discriminate H); contradiction.
  - intros H. rewrite sections_App, download_paths_App, H. split; reflexivity.
Qed.

(** X9.  The result area is all or nothing: the page shows either no
    section and no download button, or the four sections in their order
    with the six buttons; and a section never shows an empty (falsy) value,
    the fallback text stands in for it. *)
Theorem page_shows_all_or_nothing (st : State) :
  ((sections (App st) = [] /\ download_paths (App st) = [])
   \/ (map fst (sections (App st)) = section_titles
       /\ List.length (download_paths (App st)) = 6))
  /\ forallb (fun x => truthy (snd x)) (sections (App st)) = true.
Proof.
  rewrite sections_App, download_paths_App, sections_results.
  destruct (negb (loading st) && truthy (summary st)).
  - split; [right; split; reflexivity |].
    cbn [forallb snd]. unfold js_or.
    destruct (truthy (summary st)) eqn:H1, (truthy (pullSheet st)) eqn:H2,
             (truthy (bom st)) eqn:H3, (truthy (JStr (notes st))) eqn:H4;
      rewrite ?H1, ?H2, ?H3, ?H4; reflexivity.
  - split; [left; split; reflexivity | reflexivity].
Qed.

(** ** Artifact paths *)

Lemma append_underscore_unique (f1 f2 u1 u2 : string) :
  has_char "_" u1 = false -> has_char "_" u2 = false ->
  (f1 ++ String "_" u1 = f2 ++ String "_" u2)%string ->
  f1 = f2 /\ u1 = u2.
Proof.
  revert f2. induction f1 as [| a f1 IH]; intros [| a2 f2] H1 H2 H;
    cbn [append] in H.
  - injection H as ->. split; reflexivity.
  - injection H as <- ->. rewrite has_char_app in H1.
    cbn in H1. rewrite orb_true_r in H1. discriminate.
  - injection H as -> <-. rewrite has_char_app in H2.
    cbn in H2. rewrite orb_true_r in H2. discriminate.
  - injection H as -> H. destruct (IH f2 H1 H2 H) as [-> ->].
    split; reflexivity.
Qed.

(** X10.  An artifact path determines the file name and the artifact it
    was built from: two uploads, or two artifacts of one upload, share a
    path only when file name, suffix and extension all agree. *)
Theorem artifact_path_injective (f1 f2 : string) (x1 x2 : Suffix * Ext) :
  artifact_path f1 x1 = artifact_path f2 x2 <-> f1 = f2 /\ x1 = x2.
Proof.
  split; [| intros [-> ->]; reflexivity].
  unfold artifact_path, artifact_name. cbn [append]. intros H.
  injection H as H.
  apply append_underscore_unique in H.
  - destruct H as [-> H]. split; [reflexivity |].
    destruct x1 as [[| | |] [|]], x2 as [[| | |] [|]];
      cbn in H; try discriminate H; reflexivity.
  - destruct x1 as [[| | |] [|]]; reflexivity.
  - destruct x2 as [[| | |] [|]]; reflexivity.
Qed.

(** ** Splitting a path *)

(** The pieces of a split: the last one and those before it. *)
Lemma split_last (c : ascii) (s : string) :
  exists front name,
    split c s = front ++ [name]
    /\ has_char c name = false
    /\ ((front = [] /\ s = name)
        \/ (front <> [] /\ exists dir, s = (dir ++ String c name)%string)).
Proof.
  induction s as [| a s (front & name & Hs & Hn & Hshape)]; cbn [split].
  - exists [], "". repeat split. left. split; reflexivity.
  - destruct (Ascii.eqb a c) eqn:Ha.
    + apply Ascii.eqb_eq in Ha. subst a.
      exists ("" :: front), name. rewrite Hs. repeat split; [assumption |].
      right. split; [discriminate |].
      destruct Hshape as [[_ ->] | [_ (dir & ->)]].
      * exists "". reflexivity.
      * exists (String c dir). reflexivity.
    + rewrite Hs. destruct front as [| piece front].
      * exists [], (String a name). cbn [app has_char].
        rewrite Ha, Hn. repeat split. left.
        destruct Hshape as [[_ ->] | [Hne _]]; [split; reflexivity |].
        exfalso. apply Hne. reflexivity.
      * exists (String a piece :: front), name. repeat split; [assumption |].
        right. split; [discriminate |].
        destruct Hshape as [[Hnil _] | [_ (dir & ->)]]; [discriminate Hnil |].
        exists (String a dir). reflexivity.
Qed.

(** X11.  For every path, [downloadFile] links to the path itself and
    saves under the part after its last slash (the whole path when it has
    none): the [download] attribute is always a string, and it holds no
    slash. *)
Theorem download_is_last_component (path : string) :
  href (downloadFile path) = path
  /\ exists saved,
       download (downloadFile path) = JStr saved
       /\ has_char "/" saved = false
       /\ (path = saved \/ exists dir, path = (dir ++ String "/" saved)%string).
Proof.
  split; [reflexivity |].
  destruct (split_last "/" path) as (front & saved & Hs & Hn & Hshape).
  exists saved. unfold downloadFile, pop. cbn [download].
  rewrite Hs, rev_app_distr. cbn [rev app]. repeat split; [assumption |].
  destruct Hshape as [[_ ->] | [_ (dir & ->)]]; [left; reflexivity |].
  right. exists dir. reflexivity.
Qed.

(** ** What a successful upload displays *)

(** X13.  After a run that reports no error, on a page that was on screen
    and with no other run in between, the screen shows the four sections
    exactly when the received summary is truthy and the summary, pull sheet
    and BOM to display are renderable.  Each section then holds the text
    React gives its value: a string or number as it is, nothing for [true],
    and the fallback text where the pull sheet, the BOM or the joined notes
    are falsy.  With a falsy summary no section is shown, and with an object
    among the three values the render throws and nothing is shown. *)
Theorem successful_upload_sections (st : State) (file : File) (others : list File)
    (net : FetchOutcome) :
  succeeded (handleUpload (file :: others) net) = true ->
  mounts (App st) = true ->
  exists data v c b n s,
    net = Response true (Json data)
    /\ get_prop data "summary" = inr v
    /\ get_prop data "cable_pull_sheet" = inr c
    /\ get_prop data "reflected_bom" = inr b
    /\ get_prop data "notes" = inr n
    /\ call_join n newline = inr s
    /\ displayed (page_after st (fst (handleUpload (file :: others) net)))
       = if truthy v && results_renderable v c b
         then [ ("System Summary", dom_text v);
                ("Cable Pull Sheet", dom_text (js_or c no_data));
                ("Reflected BOM", dom_text (js_or b no_data));
                ("System Verification Notes", dom_text (js_or (JStr s) no_data)) ]
         else [].
Proof.
  intros H Hst.
  destruct (succeeded_inv _ _ _ H)
    as (data & v & c & b & n & s & -> & Hv & Hc & Hb & Hn & Hj).
  exists data, v, c, b, n, s. repeat split; try assumption.
  rewrite (handleUpload_json _ _ _ _ _ _ _ Hv Hc Hb Hn), Hj. cbn [fst].
  unfold page_after. rewrite alive_through_json_ok, Hst, state_after_json_ok.
  cbn [andb]. destruct (truthy v) eqn:Ht; cbn [negb orb andb].
  - destruct (results_renderable v c b); cbn [displayed]; [| reflexivity].
    rewrite sections_App, sections_results.
    cbn [loading summary pullSheet bom notes negb andb].
    rewrite Ht. unfold js_or at 1. rewrite Ht. reflexivity.
  - cbn [displayed]. rewrite sections_App.
    cbn [loading summary negb andb]. rewrite Ht. reflexivity.
Qed.

Lemma successful_upload_sections_witness :
  succeeded (handleUpload [Samples.plan_b]
               (Response true (Json Samples.full_result))) = true
  /\ mounts (App Samples.after_plan_a) = true
  /\ exists data v c b n s,
       Response true (Json Samples.full_result) = Response true (Json data)
       /\ get_prop data "summary" = inr v
       /\ get_prop data "cable_pull_sheet" = inr c
       /\ get_prop data "reflected_bom" = inr b
       /\ get_prop data "notes" = inr n
       /\ call_join n newline = inr s
       /\ displayed (page_after Samples.after_plan_a
                       (fst (handleUpload [Samples.plan_b]
                               (Response true (Json Samples.full_result)))))
          = if truthy v && results_renderable v c b
            then [ ("System Summary", dom_text v);
                   ("Cable Pull Sheet", dom_text (js_or c no_data));
                   ("Reflected BOM", dom_text (js_or b no_data));
                   ("System Verification Notes", dom_text (js_or (JStr s) no_data)) ]
            else [].
Proof.
  split; [reflexivity |]. split; [reflexivity |].
  apply (successful_upload_sections Samples.after_plan_a Samples.plan_b []
           (Response true (Json Samples.full_result))); reflexivity.
Defined.

(** X18.  Through any run on a selected file that no other run overlaps,
    the page is rendered with [loading] set from the second effect to the
    last but one, so no render before the last can throw: rendering after
    every effect, the page stays mounted exactly when it was mounted before
    the run and the state the run leaves can be rendered. *)
Theorem alive_through_run (st : State) (file : File) (others : list File)
    (net : FetchOutcome) :
  alive_through st (fst (handleUpload (file :: others) net))
  = mounts (App st) && mounts (App (after_upload st (file :: others) net)).
Proof.
  unfold after_upload.
  destruct (run_shapes file others net)
    as [(e & ->) | [(v & c & b & s & ->) | (v & c & b & e & ->)]]; cbn [fst].
  - unfold trace_failed. cbn [alive_through apply_effect apply_effects fold_left].
    rewrite !mounts_App. cbn [loading summary pullSheet bom orb].
    destruct (loading st), (truthy (summary st)),
             (results_renderable (summary st) (pullSheet st) (bom st)); reflexivity.
  - unfold trace_ok. rewrite alive_through_json_ok, state_after_json_ok, !mounts_App.
    reflexivity.
  - unfold trace_partial.
    rewrite alive_through_json_throw, state_after_json_throw, !mounts_App.
    reflexivity.
Qed.

(** ** The notes, line by line *)

Lemma split_app_sep (c : ascii) (piece rest : string) :
  has_char c piece = false ->
  split c (piece ++ String c rest) = piece :: split c rest.
Proof.
  induction piece as [| a piece IH]; cbn [append split has_char].
  - intros _. rewrite Ascii.eqb_refl. reflexivity.
  - intros H. apply orb_false_iff in H. destruct H as [Ha Hp].
    rewrite Ha, (IH Hp). reflexivity.
Qed.

Lemma split_sep_concat (c : ascii) (l : list string) :
  l <> [] ->
  forallb (fun s => negb (has_char c s)) l = true ->
  split c (sep_concat (String c "") l) = l.
Proof.
  induction l as [| piece l IH]; [intros H; contradiction H; reflexivity |].
  intros _ H. cbn [forallb] in H. apply andb_true_iff in H.
  destruct H as [Hp Hl]. apply negb_true_iff in Hp.
  destruct l as [| q l].
  - cbn [sep_concat]. apply split_without_sep. assumption.
  - change (sep_concat (String c "") (piece :: q :: l))
      with (piece ++ String c (sep_concat (String c "") (q :: l)))%string.
    rewrite (split_app_sep _ _ _ Hp), IH; [reflexivity | discriminate | assumption].
Qed.

(** X14.  When the response carries a JobResult with at least one note and
    no note holds a line break, the notes cell holds one note per line, in
    the order received: its lines are the notes. *)
Theorem notes_shown_one_per_line (st : State) (file : File) (others : list File)
    (data : JsValue) (r : JobResult) :
  carries data r ->
  jr_notes r <> [] ->
  forallb (fun s => negb (has_char newline_char s)) (jr_notes r) = true ->
  split newline_char
    (notes (after_upload st (file :: others) (Response true (Json data))))
  = jr_notes r.
Proof.
  destruct data as [| | | | | |props]; cbn [carries]; try contradiction.
  intros (Hs & Hc & Hb & Hn) Hne Hlines.
  unfold after_upload.
  rewrite (handleUpload_json file others (JObj props)
             (JStr (jr_summary r)) (JStr (jr_cable_pull_sheet r))
             (JStr (jr_reflected_bom r)) (JArr (map JStr (jr_notes r))));
    try (cbn [get_prop]; rewrite ?Hs, ?Hc, ?Hb, ?Hn; reflexivity).
  cbn [call_join]. rewrite elems_to_strings_strings. cbn [fst].
  rewrite state_after_json_ok. cbn [notes].
  apply split_sep_concat; assumption.
Qed.

Lemma notes_shown_one_per_line_witness :
  carries Samples.full_result Samples.full_job
  /\ jr_notes Samples.full_job <> []
  /\ forallb (fun s => negb (has_char newline_char s)) (jr_notes Samples.full_job) = true
  /\ split newline_char
       (notes (after_upload initial [Samples.plan_a]
                 (Response true (Json Samples.full_result))))
     = ["check rack"; "verify gain"].
Proof.
  assert (H1 : carries Samples.full_result Samples.full_job)
    by (cbn; repeat split; reflexivity).
  assert (H2 : jr_notes Samples.full_job <> []) by discriminate.
  assert (H3 : forallb (fun s => negb (has_char newline_char s))
                 (jr_notes Samples.full_job) = true) by reflexivity.
  split; [exact H1 |]. split; [exact H2 |]. split; [exact H3 |].
  exact (notes_shown_one_per_line initial Samples.plan_a [] _ _ H1 H2 H3).
Defined.

(** ** When [join] throws *)

(** Induction on a value through the elements of its arrays. *)
Lemma JsValue_elems_ind (P : JsValue -> Prop) :
  P JUndefined -> P JNull -> (forall b, P (JBool b)) ->
  (forall text, P (JNum text)) -> (forall s, P (JStr s)) ->
  (forall elems, Forall P elems -> P (JArr elems)) ->
  (forall props, P (JObj props)) ->
  forall v, P v.
Proof.
  intros Hu Hn Hb Hnum Hs Harr Hobj.
  fix IH 1. intros [| | b | text | s | elems | props];
    [exact Hu | exact Hn | apply Hb | apply Hnum | apply Hs | | apply Hobj].
  apply Harr. induction elems as [| e elems IHelems]; constructor.
  - apply IH.
  - exact IHelems.
Qed.

Lemma to_string_array (elems : list JsValue) :
  to_string (JArr elems) = option_map (sep_concat ",") (elems_to_strings elems).
Proof.
  reflexivity.
Qed.

Lemma elem_converts (e : JsValue) :
  match elem_to_string e with Some _ => true | None => false end = converts e.
Proof. destruct e; reflexivity. Qed.

Lemma elems_convert (elems : list JsValue) :
  Forall (fun e => converts e = joinable e) elems ->
  match elems_to_strings elems with Some _ => true | None => false end
  = forallb joinable elems.
Proof.
  induction 1 as [| e elems He _ IH]; [reflexivity |].
  cbn [elems_to_strings forallb]. rewrite <- IH, <- He, <- elem_converts.
  destruct (elem_to_string e), (elems_to_strings elems); reflexivity.
Qed.

Lemma converts_joinable (v : JsValue) : converts v = joinable v.
Proof.
  induction v as [| | b | text | s | elems IH | props] using JsValue_elems_ind;
    try reflexivity.
  - destruct b; reflexivity.
  - unfold converts. rewrite to_string_array. cbn [joinable].
    rewrite <- (elems_convert _ IH).
    destruct (elems_to_strings elems); reflexivity.
  - unfold converts. cbn. destruct (assoc "toString" props); reflexivity.
Qed.

(** X15.  [v.join(sep)] returns exactly when [v] is an array none of whose
    elements, at any depth of nested arrays, is an object that owns a
    [toString] key; on every other value it throws.  So an array of strings,
    numbers, booleans and nulls always joins. *)
Theorem join_succeeds_iff (v : JsValue) (sep : string) :
  (exists s, call_join v sep = inr s)
  <-> exists elems, v = JArr elems /\ forallb joinable elems = true.
Proof.
  split.
  - intros [s H]. destruct v as [| | b | text | s' | elems | props];
      try discriminate H.
    exists elems. split; [reflexivity |].
    rewrite <- elems_convert by (apply Forall_forall; intros; apply converts_joinable).
    cbn [call_join] in H. destruct (elems_to_strings elems); [reflexivity | discriminate H].
  - intros (elems & -> & H).
    rewrite <- elems_convert in H
      by (apply Forall_forall; intros; apply converts_joinable).
    cbn [call_join]. destruct (elems_to_strings elems) as [parts |];
      [eexists; reflexivity | discriminate H].
Qed.

(** ** Witnesses of properties proved above *)

Lemma handleUpload_reads_four_fields_witness :
  (forall k, In k ["summary"; "cable_pull_sheet"; "reflected_bom"; "notes"] ->
     get_prop Samples.full_result k
     = get_prop (JObj (("job_id", JNum "7") :: Samples.full_result_fields)) k)
  /\ handleUpload [Samples.plan_a] (Response true (Json Samples.full_result))
     = handleUpload [Samples.plan_a]
         (Response true (Json (JObj (("job_id", JNum "7") :: Samples.full_result_fields)))).
Proof.
  assert (H : forall k,
             In k ["summary"; "cable_pull_sheet"; "reflected_bom"; "notes"] ->
             get_prop Samples.full_result k
             = get_prop (JObj (("job_id", JNum "7") :: Samples.full_result_fields)) k).
  { intros k [<- | [<- | [<- | [<- | []]]]]; reflexivity. }
  split; [exact H |].
  exact (handleUpload_reads_four_fields [Samples.plan_a] _ _ H).
Defined.

Lemma download_name_follows_scheme_witness :
  has_char "/" "a.pdf" = false
  /\ download (downloadFile (artifact_path "a.pdf" (Verification, Pdf)))
     = JStr "a.pdf_verification.pdf".
Proof.
  split; [reflexivity |].
  apply (download_name_follows_scheme "a.pdf" (Verification, Pdf)). reflexivity.
Defined.



End FrontendMore.

(* ================================================================== *)
(** * Properties of the merge                                          *)
(* ================================================================== *)

Module PipelineFacts.
Import Pipeline.

Lemma id_eqb_eq (a b : DeviceId) : id_eqb a b = true <-> a = b.
Proof.
  destruct a as [n l], b as [n' l']. unfold id_eqb. cbn [fst snd].
  rewrite andb_true_iff, !String.eqb_eq. split.
  - intros [-> ->]. reflexivity.
  - intros H. injection H as -> ->. split; reflexivity.
Qed.

Lemma seen_in_In (ids : list DeviceId) (i : DeviceId) :
  seen_in ids i = true <-> In i ids.
Proof.
  unfold seen_in. rewrite existsb_exists. split.
  - intros (x & Hx & He). apply id_eqb_eq in He. subst. assumption.
  - intros H. exists i. split; [assumption | apply id_eqb_eq; reflexivity].
Qed.

Lemma seen_in_false (ids : list DeviceId) (i : DeviceId) :
  seen_in ids i = false <-> ~ In i ids.
Proof.
  rewrite <- seen_in_In. destruct (seen_in ids i); intuition congruence.
Qed.

Lemma present_In (ds : list Device) (i : DeviceId) :
  present ds i = true <-> In i (map identity ds).
Proof. apply seen_in_In. Qed.

Lemma resolvable_spec (ds : list Device) (p : RoutingPath) :
  resolvable ds p = true <->
  In (source p) (map identity ds) /\ In (destination p) (map identity ds).
Proof. unfold resolvable. rewrite andb_true_iff, !present_In. reflexivity. Qed.

(** ** Deduplication *)

(** A device that survives was in the list and was not seen before. *)
Lemma dedup_from_In (ds : list Device) :
  forall seen d, In d (dedup_from seen ds) -> In d ds /\ ~ In (identity d) seen.
Proof.
  induction ds as [| x ds IH]; intros seen d; cbn [dedup_from].
  - intros [].
  - destruct (seen_in seen (identity x)) eqn:Hx.
    + intros H. destruct (IH _ _ H) as [H1 H2]. split; [right |]; assumption.
    + intros [-> | H].
      * split; [left; reflexivity | apply seen_in_false; assumption].
      * destruct (IH _ _ H) as [H1 H2]. split; [right; assumption |].
        intros Hs. apply H2. right. assumption.
Qed.

(** No identity occurs twice after the deduplication. *)
Lemma dedup_from_NoDup (ds : list Device) :
  forall seen, NoDup (map identity (dedup_from seen ds)).
Proof.
  induction ds as [| x ds IH]; intros seen; cbn [dedup_from].
  - constructor.
  - destruct (seen_in seen (identity x)); [apply IH |].
    cbn [map]. constructor; [| apply IH].
    intros H. apply in_map_iff in H. destruct H as (d & Hd & Hin).
    apply dedup_from_In in Hin. destruct Hin as [_ Hn].
    apply Hn. left. symmetry. assumption.
Qed.

(** No identity is lost by it. *)
Lemma dedup_from_keeps (ds : list Device) :
  forall seen i, In i (map identity ds) -> ~ In i seen ->
    In i (map identity (dedup_from seen ds)).
Proof.
  induction ds as [| x ds IH]; intros seen i; cbn [dedup_from map].
  - intros [].
  - intros Hin Hns. destruct (seen_in seen (identity x)) eqn:Hx.
    + destruct Hin as [<- | Hin].
      * exfalso. apply Hns. apply seen_in_In. assumption.
      * apply IH; assumption.
    + cbn [map]. destruct Hin as [<- | Hin]; [left; reflexivity |].
      destruct (id_eqb (identity x) i) eqn:He.
      * left. apply id_eqb_eq. assumption.
      * right. apply IH; [assumption |].
        intros [Heq | Hs]; [| exact (Hns Hs)].
        apply id_eqb_eq in Heq. congruence.
Qed.

Lemma dedup_identities (ds : list Device) (i : DeviceId) :
  In i (map identity (dedup ds)) <-> In i (map identity ds).
Proof.
  unfold dedup. split.
  - intros H. apply in_map_iff in H. destruct H as (d & <- & Hd).
    apply dedup_from_In in Hd. apply in_map. apply Hd.
  - intros H. apply dedup_from_keeps; [assumption | intros []].
Qed.

(** The device kept for an identity is the first one of that identity. *)
Lemma dedup_from_first (ds : list Device) :
  forall seen d, In d (dedup_from seen ds) ->
    exists before after,
      ds = before ++ d :: after /\ ~ In (identity d) (map identity before).
Proof.
  induction ds as [| x ds IH]; intros seen d; cbn [dedup_from].
  - intros [].
  - destruct (seen_in seen (identity x)) eqn:Hx.
    + intros H. pose proof (dedup_from_In _ _ _ H) as [_ Hns].
      destruct (IH _ _ H) as (before & after & -> & Hb).
      exists (x :: before), after. split; [reflexivity |].
      cbn [map]. intros [Heq | Hin]; [| exact (Hb Hin)].
      apply Hns. rewrite <- Heq. apply seen_in_In. assumption.
    + intros [-> | H].
      * exists [], ds. split; [reflexivity | intros []].
      * pose proof (dedup_from_In _ _ _ H) as [_ Hns].
        destruct (IH _ _ H) as (before & after & -> & Hb).
        exists (x :: before), after. split; [reflexivity |].
        cbn [map]. intros [Heq | Hin]; [| exact (Hb Hin)].
        apply Hns. left. assumption.
Qed.

(** ** The merge *)

Lemma merge_devices (chunks : list InterpretationResult) :
  devices (merge chunks) = dedup (flat_map devices chunks).
Proof. reflexivity. Qed.

Lemma merge_paths (chunks : list InterpretationResult) :
  paths (merge chunks)
  = filter (resolvable (devices (merge chunks))) (flat_map paths chunks).
Proof. reflexivity. Qed.

Lemma merge_notes (chunks : list InterpretationResult) :
  notes (merge chunks)
  = flat_map notes chunks
    ++ map dropped_note
         (filter (fun p => negb (resolvable (devices (merge chunks)) p))
                 (flat_map paths chunks)).
Proof. reflexivity. Qed.

(** Whatever the chunks hold, the merged result has no dangling path. *)
Lemma merge_integrity (chunks : list InterpretationResult) :
  referential_integrity (merge chunks).
Proof.
  intros p Hp. rewrite merge_paths in Hp. apply filter_In in Hp.
  apply resolvable_spec. apply Hp.
Qed.

(** C1.  Every result that [interpret] returns, from one chunk or merged
    from many, has referential integrity: both ends of each of its routing
    paths are identities of devices in its device list. *)
Theorem interpret_referential_integrity (cfg : Config) (model : Model)
    (content : ExtractedContent) (r : InterpretationResult) :
  interpret cfg model content = inr r -> referential_integrity r.
Proof.
  unfold interpret.
  destruct (interpret_chunks cfg model (chunk cfg content)) as [e | rs];
    [discriminate |].
  intros H. injection H as <-. apply merge_integrity.
Qed.

Lemma interpret_referential_integrity_witness :
  interpret Samples.per_page Samples.two_page_model [Samples.page1; Samples.page2]
  = inr Samples.two_page_result
  /\ referential_integrity Samples.two_page_result.
Proof.
  assert (H : interpret Samples.per_page Samples.two_page_model
                [Samples.page1; Samples.page2] = inr Samples.two_page_result)
    by reflexivity.
  split; [exact H |].
  exact (interpret_referential_integrity _ _ _ _ H).
Defined.

(** C7.  The merge deduplicates devices by (name, location): the merged
    device list holds each identity of the chunks exactly once, through the
    first device that had it.  A routing path of the chunks is in the merged
    result exactly when both its ends are in the merged device list; every
    other path is dropped and its note is among the merged notes, after the
    chunks' own notes, which are all kept. *)
Theorem merge_policy (chunks : list InterpretationResult) :
  NoDup (map identity (devices (merge chunks)))
  /\ (forall i, In i (map identity (devices (merge chunks)))
                <-> In i (map identity (flat_map devices chunks)))
  /\ (forall d, In d (devices (merge chunks)) ->
        exists before after,
          flat_map devices chunks = before ++ d :: after
          /\ ~ In (identity d) (map identity before))
  /\ (forall p, In p (paths (merge chunks))
                <-> In p (flat_map paths chunks)
                    /\ In (source p) (map identity (devices (merge chunks)))
                    /\ In (destination p) (map identity (devices (merge chunks))))
  /\ (forall p, In p (flat_map paths chunks) ->
        ~ In (source p) (map identity (devices (merge chunks)))
        \/ ~ In (destination p) (map identity (devices (merge chunks))) ->
        ~ In p (paths (merge chunks)) /\ In (dropped_note p) (notes (merge chunks)))
  /\ (forall n, In n (flat_map notes chunks) -> In n (notes (merge chunks))).
Proof.
  repeat apply conj.
  - rewrite merge_devices. apply dedup_from_NoDup.
  - intros i. rewrite merge_devices. apply dedup_identities.
  - intros d Hd. rewrite merge_devices in Hd. apply (dedup_from_first _ _ _ Hd).
  - intros p. rewrite merge_paths, filter_In, resolvable_spec. reflexivity.
  - intros p Hp Habsent.
    assert (Hr : resolvable (devices (merge chunks)) p = false).
    { destruct (resolvable (devices (merge chunks)) p) eqn:Hr; [| reflexivity].
      apply resolvable_spec in Hr. tauto. }
    split.
    + rewrite merge_paths. intros Hin. apply filter_In in Hin.
      destruct Hin as [_ Hin]. congruence.
    + rewrite merge_notes. apply in_or_app. right. apply in_map.
      apply filter_In. split; [assumption |]. rewrite Hr. reflexivity.
  - intros n Hn. rewrite merge_notes. apply in_or_app. left. assumption.
Qed.

(** The merge on the two sample chunks: the repeated amplifier is merged
    into the first one, the amplifier at another location stays, and the
    path to the missing DSP is dropped with its note. *)
Example merge_two_chunks :
  merge [ mkResult [Samples.amp] [Samples.amp_to_spk; Samples.amp_to_ghost]
                   ["check rack"] "Rack";
          mkResult [Samples.amp_again; Samples.amp_booth; Samples.spk] [] [] "Room" ]
  = mkResult [Samples.amp; Samples.amp_booth; Samples.spk]
             [Samples.amp_to_spk]
             ["check rack"; dropped_note Samples.amp_to_ghost]
             "Rack
Room".
Proof. reflexivity. Qed.

End PipelineFacts.
